(** * SingleDeviceStrategy

    A shallow embedding of
    [src/pytorch_lightning/strategies/single_device.py].

    Python methods become computations in a small monad that threads the
    mutable world (the strategy object, the model it refers to and the
    torch runtime) and carries Python exceptions: a raised exception keeps
    the mutations made before it, as in Python. *)

From Stdlib Require Import ZArith List String Bool Lia.
Import ListNotations.
Local Open Scope string_scope.

(** ** Values *)

(** [torch.device]: a type string and an optional index. *)
Record device : Type := Device {
  d_type  : string;
  d_index : option nat
}.

Definition option_nat_eqb (a b : option nat) : bool :=
  match a, b with
  | None, None => true
  | Some x, Some y => Nat.eqb x y
  | _, _ => false
  end.

(** [==] on [torch.device]. *)
Definition device_eqb (a b : device) : bool :=
  String.eqb (d_type a) (d_type b) && option_nat_eqb (d_index a) (d_index b).

(** [torch.device("cpu")]. *)
Definition cpu_device : device := Device "cpu" None.

(** [torch.Tensor]: its elements, where it lives and its gradient flag. *)
Record Tensor : Type := mkTensor {
  t_data          : list Z;
  t_device        : device;
  t_requires_grad : bool
}.

(** The values a caller may hand to [reduce] and friends ([Any]). *)
#[warnings="-register-all"]
Inductive Any : Type :=
| PyNone
| PyBool (b : bool)
| PyInt (z : Z)
| PyStr (s : string)
| PyTensor (t : Tensor)
| PyList (l : list Any).

(** [torch.nn.Module]: the parameters and buffers [to] relocates. *)
Record Module : Type := mkModule {
  m_parameters : list Tensor;
  m_buffers    : list Tensor
}.

(** Opaque collaborators, held by reference only. *)
Inductive Accelerator : Type := AcceleratorRef (id : nat).
Inductive CheckpointIO : Type := CheckpointIORef (id : nat).
Inductive PrecisionPlugin : Type := PrecisionPluginRef (id : nat).
Inductive Trainer : Type := TrainerRef (id : nat).

(** ** Exceptions *)

(** The Python exceptions that can come out of the strategy: the
    [AttributeError] of a method call on [None], and whatever torch raises,
    whose class depends on the build. *)
Inductive exn : Type :=
| AttributeError (msg : string)
| RuntimeError (msg : string)
| AssertionError (msg : string)
| NotImplementedError (msg : string)
| OtherError (msg : string).

Inductive Outcome (A : Type) : Type :=
| Val (a : A)
| Exc (e : exn).
Arguments Val {A} a.
Arguments Exc {A} e.

(** ** The world *)

(** Where torch puts a tensor it was asked to place: the device the tensor
    lands on, and whether its elements are copied there. *)
Record Landing : Type := mkLanding {
  land_device : device;
  land_keeps  : bool
}.

(** What the torch runtime and the installed packages answer.
    [torch.cuda.is_available()] is [device_count() > 0]; [cuda_cached] counts
    the elements held in the CUDA caching allocator's free pools.
    [placement d] is the answer of this build of torch to a request to put a
    tensor on the device [d], other than the host: the landing (torch
    resolves the request, an index-less [cuda] becomes the current CUDA
    device, and a [meta] device keeps no elements), or the exception this
    build raises.  Nothing is assumed about it. *)
Record Runtime : Type := mkRuntime {
  cuda_device_count : nat;
  XLA_AVAILABLE     : bool;
  cuda_cached       : nat;
  placement         : device -> Outcome Landing
}.

(** The attributes of a [SingleDeviceStrategy] object.  The first four are
    written by its own [__init__]; the rest belong to the base class. *)
Record StrategyObj : Type := mkStrategyObj {
  self_device      : device;
  global_rank      : Z;
  local_rank       : Z;
  world_size       : Z;
  self_model       : option Module;
  accelerator      : option Accelerator;
  checkpoint_io    : option CheckpointIO;
  precision_plugin : option PrecisionPlugin
}.

Record World : Type := mkWorld {
  self  : StrategyObj;
  torch : Runtime
}.

(** ** The monad *)

Definition M (A : Type) : Type := World -> Outcome A * World.

Definition ret {A} (a : A) : M A := fun w => (Val a, w).

Definition bind {A B} (m : M A) (k : A -> M B) : M B :=
  fun w =>
    match m w with
    | (Val a, w1) => k a w1
    | (Exc e, w1) => (Exc e, w1)
    end.

Definition raise {A} (e : exn) : M A := fun w => (Exc e, w).

Definition get : M World := fun w => (Val w, w).

Definition modify (f : World -> World) : M unit := fun w => (Val tt, f w).

Notation "x <- m ;; k" := (bind m (fun x => k))
  (at level 61, m at next level, right associativity).
Notation "m ;; k" := (bind m (fun _ => k))
  (at level 61, right associativity).

(** Attribute writes on [self]. *)
Definition with_self (f : StrategyObj -> StrategyObj) (w : World) : World :=
  mkWorld (f (self w)) (torch w).

Definition set_device (d : device) (s : StrategyObj) : StrategyObj :=
  mkStrategyObj d (global_rank s) (local_rank s) (world_size s)
    (self_model s) (accelerator s) (checkpoint_io s) (precision_plugin s).

Definition set_global_rank (r : Z) (s : StrategyObj) : StrategyObj :=
  mkStrategyObj (self_device s) r (local_rank s) (world_size s)
    (self_model s) (accelerator s) (checkpoint_io s) (precision_plugin s).

Definition set_local_rank (r : Z) (s : StrategyObj) : StrategyObj :=
  mkStrategyObj (self_device s) (global_rank s) r (world_size s)
    (self_model s) (accelerator s) (checkpoint_io s) (precision_plugin s).

Definition set_world_size (n : Z) (s : StrategyObj) : StrategyObj :=
  mkStrategyObj (self_device s) (global_rank s) (local_rank s) n
    (self_model s) (accelerator s) (checkpoint_io s) (precision_plugin s).

Definition set_model (m : option Module) (s : StrategyObj) : StrategyObj :=
  mkStrategyObj (self_device s) (global_rank s) (local_rank s) (world_size s)
    m (accelerator s) (checkpoint_io s) (precision_plugin s).

Definition set_cuda_cached (n : nat) (r : Runtime) : Runtime :=
  mkRuntime (cuda_device_count r) (XLA_AVAILABLE r) n (placement r).

(** ** The torch runtime

    torch is an external library; the calls the strategy makes are modelled
    by their documented behaviour, and what depends on the build and on the
    hardware is left to the runtime's [placement]. *)
Module Torch.

(** [torch.cuda.is_available()]. *)
Definition cuda_is_available (r : Runtime) : bool :=
  Nat.ltb 0 (cuda_device_count r).

(** Where a tensor sent to [d] lands.  The host always takes it, whatever
    index the request carries, and a host tensor's device is
    [torch.device("cpu")]; for any other device the runtime answers. *)
Definition place (r : Runtime) (d : device) : Outcome Landing :=
  if String.eqb (d_type d) "cpu" then Val (mkLanding cpu_device true)
  else placement r d.

(** [Tensor.to(d)] as [Module.to] applies it to one parameter.  A tensor
    whose device is [d], or the device a request for [d] resolves to, stays
    as it is.  Otherwise it is copied to where the request lands, with its
    elements when that device keeps them, and the CUDA block it leaves goes
    back to the caching allocator; a refused request raises what the
    runtime raises. *)
Definition tensor_to (d : device) (t : Tensor) (r : Runtime)
  : Outcome Tensor * Runtime :=
  if device_eqb (t_device t) d then (Val t, r)
  else
    match place r d with
    | Exc e => (Exc e, r)
    | Val l =>
        if device_eqb (t_device t) (land_device l) then (Val t, r)
        else
          (Val (mkTensor (if land_keeps l then t_data t else [])
                         (land_device l) (t_requires_grad t)),
           if String.eqb (d_type (t_device t)) "cuda"
           then set_cuda_cached (cuda_cached r + List.length (t_data t)) r
           else r)
    end.

Fixpoint tensors_to (d : device) (ts : list Tensor) (r : Runtime)
  : Outcome (list Tensor) * Runtime :=
  match ts with
  | [] => (Val [], r)
  | t :: rest =>
      match tensor_to d t r with
      | (Val t', r1) =>
          match tensors_to d rest r1 with
          | (Val rest', r2) => (Val (t' :: rest'), r2)
          | (Exc e, r2) => (Exc e, r2)
          end
      | (Exc e, r1) => (Exc e, r1)
      end
  end.

(** [Module.to(d)]: parameters first, then buffers. *)
Definition module_to (d : device) (m : Module) (r : Runtime)
  : Outcome Module * Runtime :=
  match tensors_to d (m_parameters m) r with
  | (Val ps, r1) =>
      match tensors_to d (m_buffers m) r1 with
      | (Val bs, r2) => (Val (mkModule ps bs), r2)
      | (Exc e, r2) => (Exc e, r2)
      end
  | (Exc e, r1) => (Exc e, r1)
  end.

(** [torch.cuda.empty_cache()]. *)
Definition cuda_empty_cache (r : Runtime) : Runtime := set_cuda_cached 0 r.

End Torch.

(** ** The strategy *)

Definition topology (w : World) : Z * Z * Z :=
  (global_rank (self w), local_rank (self w), world_size (self w)).

(** A method call on the module the strategy refers to: [Module.to] works in
    place, so the relocated module is the one [self] still refers to. *)
Definition call_to (d : device) (m : Module) : M unit :=
  fun w =>
    match Torch.module_to d m (torch w) with
    | (Val m', r) => (Val tt, mkWorld (set_model (Some m') (self w)) r)
    | (Exc e, r) => (Exc e, mkWorld (self w) r)
    end.

(** [Module.cpu()] is [Module.to(torch.device("cpu"))]. *)
Definition call_cpu (m : Module) : M unit := call_to cpu_device m.

(** [torch.cuda.empty_cache()] as a computation. *)
Definition torch_cuda_empty_cache : M unit :=
  modify (fun w => mkWorld (self w) (Torch.cuda_empty_cache (torch w))).

Section SingleDeviceStrategy.

(** The base class [Strategy] is not part of the sources: its constructor
    and its two lifecycle hooks are parameters, arbitrary computations over
    the world. *)
Variable Strategy_init :
  option Accelerator -> option CheckpointIO -> option PrecisionPlugin -> M unit.
Variable Strategy_setup : Trainer -> M unit.
Variable Strategy_teardown : M unit.

(** Modelled from the spec: the base class's [model] property is missing;
    the strategy holds a reference to one model/module object, or none. *)
Definition model : M (option Module) :=
  w <- get ;; ret (self_model (self w)).

(** Modelled from the spec: the base class's [lightning_module] property is
    missing; it reads the same model/module reference. *)
Definition lightning_module : M (option Module) :=
  w <- get ;; ret (self_model (self w)).

Definition __init__ (dev : device) (acc : option Accelerator)
    (cio : option CheckpointIO) (pp : option PrecisionPlugin) : M unit :=
  Strategy_init acc cio pp ;;
  modify (with_self (set_device dev)) ;;
  modify (with_self (set_global_rank 0)) ;;
  modify (with_self (set_local_rank 0)) ;;
  modify (with_self (set_world_size 1)).

Definition root_device : M device :=
  w <- get ;; ret (self_device (self w)).

Definition on_tpu : M bool :=
  d <- root_device ;;
  if String.eqb (d_type d) "xla"
  then (w <- get ;; ret (XLA_AVAILABLE (torch w)))
  else ret false.

Definition on_gpu : M bool :=
  d <- root_device ;;
  if String.eqb (d_type d) "cuda"
  then (w <- get ;; ret (Torch.cuda_is_available (torch w)))
  else ret false.

Definition reduce (tensor : Any) (args : list Any)
    (kwargs : list (string * Any)) : M Any :=
  ret tensor.

Definition all_gather (tensor : Tensor) (group : option Any)
    (sync_grads : bool) : M Tensor :=
  ret tensor.

Definition model_to_device : M unit :=
  m <- model ;;
  match m with
  | None => raise (AttributeError "'NoneType' object has no attribute 'to'")
  | Some md => d <- root_device ;; call_to d md
  end.

Definition setup (trainer : Trainer) : M unit :=
  model_to_device ;;
  Strategy_setup trainer.

Definition is_global_zero : M bool := ret true.

Definition barrier (args : list Any) (kwargs : list (string * Any)) : M unit :=
  ret tt.

Definition broadcast (obj : Any) (src : Z) : M Any := ret obj.

Definition teardown : M unit :=
  Strategy_teardown ;;
  g <- on_gpu ;;
  if g then
    lm <- lightning_module ;;
    match lm with
    | None => raise (AttributeError "'NoneType' object has no attribute 'cpu'")
    | Some md => call_cpu md
    end ;;
    torch_cuda_empty_cache
  else ret tt.

(** The statements of [teardown] after the [super()] call, on their own. *)
Definition teardown_tail : M unit :=
  g <- on_gpu ;;
  if g then
    lm <- lightning_module ;;
    match lm with
    | None => raise (AttributeError "'NoneType' object has no attribute 'cpu'")
    | Some md => call_cpu md
    end ;;
    torch_cuda_empty_cache
  else ret tt.

(** *** Sequences of calls *)

Inductive call : Type :=
| CallReduce (tensor : Any) (args : list Any) (kwargs : list (string * Any))
| CallAllGather (tensor : Tensor) (group : option Any) (sync_grads : bool)
| CallBarrier (args : list Any) (kwargs : list (string * Any))
| CallBroadcast (obj : Any) (src : Z)
| CallModelToDevice
| CallSetup (trainer : Trainer)
| CallTeardown
| CallRootDevice
| CallIsGlobalZero
| CallOnGpu
| CallOnTpu.

(** The world a call leaves behind, whether it returns or raises. *)
Definition perform (c : call) (w : World) : World :=
  match c with
  | CallReduce t a k => snd (reduce t a k w)
  | CallAllGather t g s => snd (all_gather t g s w)
  | CallBarrier a k => snd (barrier a k w)
  | CallBroadcast o s => snd (broadcast o s w)
  | CallModelToDevice => snd (model_to_device w)
  | CallSetup tr => snd (setup tr w)
  | CallTeardown => snd (teardown w)
  | CallRootDevice => snd (root_device w)
  | CallIsGlobalZero => snd (is_global_zero w)
  | CallOnGpu => snd (on_gpu w)
  | CallOnTpu => snd (on_tpu w)
  end.

(** Every world a caller sees while issuing [cs] from [w]: before the first
    call, between calls and after the last. *)
Fixpoint history (cs : list call) (w : World) : list World :=
  match cs with
  | [] => [w]
  | c :: rest => w :: history rest (perform c w)
  end.

Definition run (cs : list call) (w : World) : World :=
  fold_left (fun w c => perform c w) cs w.

(** Whether a call is [setup]. *)
Definition is_setup (c : call) : bool :=
  match c with
  | CallSetup _ => true
  | _ => false
  end.

End SingleDeviceStrategy.

(** ** Placement and hook vocabulary *)

(** Every parameter and buffer of [m] lives on [d]. *)
Definition resides_on (m : Module) (d : device) : bool :=
  forallb (fun t => device_eqb (t_device t) d) (m_parameters m ++ m_buffers m).

(** The strategy refers to a model, and that model lives on [d]. *)
Definition model_resides_on (w : World) (d : device) : bool :=
  match self_model (self w) with
  | Some m => resides_on m d
  | None => false
  end.

(** What a theorem may ask of the absent base-class hooks. *)
Definition returns (h : M unit) : Prop :=
  forall w, fst (h w) = Val tt.

Definition keeps {A : Type} (f : World -> A) (h : M unit) : Prop :=
  forall w, f (snd (h w)) = f w.

Definition root_of (w : World) : device := self_device (self w).
Definition model_of (w : World) : option Module := self_model (self w).
Definition gpus_of (w : World) : nat := cuda_device_count (torch w).
Definition cache_of (w : World) : nat := cuda_cached (torch w).

(** ** A sample base class and sample worlds *)

Module Sample.

(** A base constructor that records its ports and starts without a model,
    and lifecycle hooks that do nothing. *)
Definition base_init (acc : option Accelerator) (cio : option CheckpointIO)
    (pp : option PrecisionPlugin) : M unit :=
  modify (with_self (fun s =>
    mkStrategyObj (self_device s) (global_rank s) (local_rank s)
      (world_size s) None acc cio pp)).

Definition base_setup (_ : Trainer) : M unit := ret tt.
Definition base_teardown : M unit := ret tt.

Definition cuda0 : device := Device "cuda" (Some 0).
Definition xla0 : device := Device "xla" (Some 0).

(** The answers of one possible build of torch: a [cuda] request is served
    when its index, the current device 0 when it carries none, is below the
    device count; an [xla] request when the XLA package is installed; a
    [meta] request always, without elements; anything else is refused. *)
Definition answers (gpus : nat) (xla : bool) (d : device) : Outcome Landing :=
  if String.eqb (d_type d) "cuda" then
    match d_index d with
    | None =>
        if Nat.ltb 0 gpus then Val (mkLanding (Device "cuda" (Some 0)) true)
        else Exc (RuntimeError "No CUDA GPUs are available")
    | Some i =>
        if Nat.ltb i gpus then Val (mkLanding (Device "cuda" (Some i)) true)
        else Exc (RuntimeError "CUDA error: invalid device ordinal")
    end
  else if String.eqb (d_type d) "xla" then
    if xla then
      Val (mkLanding
             (Device "xla"
                (Some (match d_index d with Some i => i | None => 0 end)))
             true)
    else Exc (RuntimeError "Could not run on the XLA backend")
  else if String.eqb (d_type d) "meta" then
    Val (mkLanding (Device "meta" None) false)
  else Exc (RuntimeError "Could not run on this backend").

Definition runtime (gpus : nat) (xla : bool) (cached : nat) : Runtime :=
  mkRuntime gpus xla cached (answers gpus xla).

Definition weights (d : device) : Module :=
  mkModule [mkTensor [1; 2; 3]%Z d true; mkTensor [4; 5]%Z d true]
           [mkTensor [6]%Z d false].

(** An object whose attributes hold arbitrary earlier values. *)
Definition blank : World :=
  mkWorld (mkStrategyObj cpu_device 7 7 7 None None None None)
          (runtime 1 false 0).

(** One CUDA device, model built on the host. *)
Definition host_model_world : World :=
  mkWorld (mkStrategyObj cuda0 0 0 1 (Some (weights cpu_device)) None None None)
          (runtime 1 false 0).

(** One CUDA device, model resident on it. *)
Definition gpu_world : World :=
  mkWorld (mkStrategyObj cuda0 0 0 1 (Some (weights cuda0)) None None None)
          (runtime 1 false 0).

(** An XLA device, model resident on it. *)
Definition xla_world : World :=
  mkWorld (mkStrategyObj xla0 0 0 1 (Some (weights xla0)) None None None)
          (runtime 0 true 0).

(** A [cuda] root device on a machine whose CUDA runtime reports nothing. *)
Definition no_cuda_world : World :=
  mkWorld (mkStrategyObj cuda0 0 0 1 (Some (weights cpu_device)) None None None)
          (runtime 0 false 0).

End Sample.

(** ** Vocabulary for the capability accessors and for relocation *)

(** What [on_gpu] and [on_tpu] read: the root device and what the runtime and
    the installed packages report. *)
Definition capabilities (w : World) : device * nat * bool :=
  (root_of w, gpus_of w, XLA_AVAILABLE (torch w)).

(** A tensor with its device replaced, and a module with every parameter
    and buffer so treated: the same tensors in the same order, each with its
    elements and gradient flag, living on [d]. *)
Definition retarget (d : device) (t : Tensor) : Tensor :=
  mkTensor (t_data t) d (t_requires_grad t).

Definition relocated (d : device) (m : Module) : Module :=
  mkModule (map (retarget d) (m_parameters m)) (map (retarget d) (m_buffers m)).

(** The collectives and the property reads, as opposed to the calls that
    place the model or run a lifecycle hook. *)
Definition is_collective_or_read (c : call) : bool :=
  match c with
  | CallModelToDevice | CallSetup _ | CallTeardown => false
  | _ => true
  end.

(** ** Lemmas on the torch runtime *)

Lemma option_nat_eqb_refl (o : option nat) : option_nat_eqb o o = true.
Proof. destruct o as [n|]; simpl; [apply Nat.eqb_refl | reflexivity]. Qed.

Lemma device_eqb_refl (d : device) : device_eqb d d = true.
Proof.
  unfold device_eqb. now rewrite String.eqb_refl, option_nat_eqb_refl.
Qed.

Lemma device_eqb_eq (a b : device) : device_eqb a b = true -> a = b.
Proof.
  destruct a as [ta ia], b as [tb ib]; unfold device_eqb; simpl.
  intros H. apply andb_prop in H as [Ht Hi].
  apply String.eqb_eq in Ht. subst tb. f_equal.
  destruct ia, ib; simpl in Hi; try discriminate; trivial.
  apply Nat.eqb_eq in Hi. now subst.
Qed.

Lemma world_eta (w : World) : mkWorld (self w) (torch w) = w.
Proof. now destruct w. Qed.

Lemma module_eta m : mkModule (m_parameters m) (m_buffers m) = m.
Proof. now destruct m. Qed.

Lemma resides_on_forall m d :
  resides_on m d = true ->
  Forall (fun t => t_device t = d) (m_parameters m)
  /\ Forall (fun t => t_device t = d) (m_buffers m).
Proof.
  unfold resides_on. intros H.
  assert (Hall : forall t, In t (m_parameters m ++ m_buffers m) ->
                           t_device t = d).
  { intros t Hin. apply device_eqb_eq.
    exact (proj1 (forallb_forall _ _) H t Hin). }
  split; apply Forall_forall; intros t Hin; apply Hall, in_or_app; auto.
Qed.

(** *** What a move leaves alone in the runtime *)

Lemma place_ext r r' d :
  placement r' = placement r -> Torch.place r' d = Torch.place r d.
Proof. unfold Torch.place. now intros ->. Qed.

Lemma tensor_to_build d t r o r' :
  Torch.tensor_to d t r = (o, r') ->
  cuda_device_count r' = cuda_device_count r
  /\ XLA_AVAILABLE r' = XLA_AVAILABLE r
  /\ placement r' = placement r.
Proof.
  unfold Torch.tensor_to.
  destruct (device_eqb (t_device t) d); [now intros [= _ <-]|].
  destruct (Torch.place r d) as [l|e]; [|now intros [= _ <-]].
  destruct (device_eqb (t_device t) (land_device l)); [now intros [= _ <-]|].
  intros [= _ <-]. now destruct (String.eqb _ _).
Qed.

Lemma tensors_to_build d ts : forall r o r',
  Torch.tensors_to d ts r = (o, r') ->
  cuda_device_count r' = cuda_device_count r
  /\ XLA_AVAILABLE r' = XLA_AVAILABLE r
  /\ placement r' = placement r.
Proof.
  induction ts as [|t rest IH]; simpl; intros r o r'.
  - now intros [= _ <-].
  - destruct (Torch.tensor_to d t r) as [o1 r1] eqn:E1.
    destruct (tensor_to_build _ _ _ _ _ E1) as (Hc & Hx & Hp).
    destruct o1 as [t1|e1].
    + destruct (Torch.tensors_to d rest r1) as [o2 r2] eqn:E2.
      destruct (IH _ _ _ E2) as (Hc2 & Hx2 & Hp2).
      destruct o2; intros [= _ <-]; repeat split; congruence.
    + intros [= _ <-]. auto.
Qed.

Lemma module_to_build d m r o r' :
  Torch.module_to d m r = (o, r') ->
  cuda_device_count r' = cuda_device_count r
  /\ XLA_AVAILABLE r' = XLA_AVAILABLE r
  /\ placement r' = placement r.
Proof.
  unfold Torch.module_to.
  destruct (Torch.tensors_to d (m_parameters m) r) as [o1 r1] eqn:E1.
  destruct (tensors_to_build _ _ _ _ _ E1) as (Hc & Hx & Hp).
  destruct o1 as [ps|e1].
  - destruct (Torch.tensors_to d (m_buffers m) r1) as [o2 r2] eqn:E2.
    destruct (tensors_to_build _ _ _ _ _ E2) as (Hc2 & Hx2 & Hp2).
    destruct o2; intros [= _ <-]; repeat split; congruence.
  - intros [= _ <-]. auto.
Qed.

(** *** A module that is where it should be *)

Lemma tensor_to_there d t r :
  t_device t = d -> Torch.tensor_to d t r = (Val t, r).
Proof.
  intros <-. unfold Torch.tensor_to. now rewrite device_eqb_refl.
Qed.

Lemma tensors_to_there d ts r :
  Forall (fun t => t_device t = d) ts -> Torch.tensors_to d ts r = (Val ts, r).
Proof.
  induction 1 as [|t rest Ht _ IH]; simpl; [reflexivity|].
  now rewrite (tensor_to_there _ _ r Ht), IH.
Qed.

(** A module that is where it should be is left as it is, whatever the
    runtime thinks of the device. *)
Lemma module_to_there d m r :
  resides_on m d = true -> Torch.module_to d m r = (Val m, r).
Proof.
  intros H. destruct (resides_on_forall _ _ H) as (Hps & Hbs).
  unfold Torch.module_to.
  rewrite (tensors_to_there _ _ r Hps), (tensors_to_there _ _ r Hbs).
  now rewrite module_eta.
Qed.

(** *** A move that returned has nothing left to do *)

Lemma tensor_to_again d t r t' r' r'' :
  Torch.tensor_to d t r = (Val t', r') ->
  placement r'' = placement r ->
  Torch.tensor_to d t' r'' = (Val t', r'').
Proof.
  intros E Hp. pose proof (place_ext r r'' d Hp) as Hpl.
  revert E. unfold Torch.tensor_to.
  destruct (device_eqb (t_device t) d) eqn:Eon.
  - intros [= <- _]. now rewrite Eon.
  - destruct (Torch.place r d) as [l|e] eqn:El; [|discriminate].
    destruct (device_eqb (t_device t) (land_device l)) eqn:Eland.
    + intros [= <- _]. now rewrite Eon, Hpl, Eland.
    + intros [= <- _]. simpl.
      destruct (device_eqb (land_device l) d); [reflexivity|].
      now rewrite Hpl, device_eqb_refl.
Qed.

Lemma tensors_to_again d ts : forall r ts' r' r'',
  Torch.tensors_to d ts r = (Val ts', r') ->
  placement r'' = placement r ->
  Torch.tensors_to d ts' r'' = (Val ts', r'').
Proof.
  induction ts as [|t rest IH]; simpl; intros r ts' r' r''.
  - now intros [= <- _] _.
  - destruct (Torch.tensor_to d t r) as [[t1|e] r1] eqn:E1; [|discriminate].
    destruct (Torch.tensors_to d rest r1) as [[rest1|e] r2] eqn:E2;
      [|discriminate].
    intros [= <- _] Hp. simpl.
    rewrite (tensor_to_again _ _ _ _ _ r'' E1 Hp).
    destruct (tensor_to_build _ _ _ _ _ E1) as (_ & _ & Hp1).
    rewrite (IH _ _ _ r'' E2); [reflexivity | congruence].
Qed.

Lemma module_to_again d m r m' r' :
  Torch.module_to d m r = (Val m', r') ->
  Torch.module_to d m' r' = (Val m', r').
Proof.
  intros E. destruct (module_to_build _ _ _ _ _ E) as (_ & _ & Hp).
  revert E. unfold Torch.module_to.
  destruct (Torch.tensors_to d (m_parameters m) r) as [[ps|e1] r1] eqn:E1;
    [|discriminate].
  destruct (Torch.tensors_to d (m_buffers m) r1) as [[bs|e2] r2] eqn:E2;
    [|discriminate].
  intros [= <- <-]. simpl.
  destruct (tensors_to_build _ _ _ _ _ E1) as (_ & _ & Hp1).
  rewrite (tensors_to_again _ _ _ _ _ r2 E1 Hp).
  rewrite (tensors_to_again _ _ _ _ _ r2 E2); [reflexivity | congruence].
Qed.

(** *** A move that raised has touched nothing *)

Lemma tensors_to_served d ts : forall r l,
  Torch.place r d = Val l ->
  exists ts' r', Torch.tensors_to d ts r = (Val ts', r').
Proof.
  induction ts as [|t rest IH]; simpl; intros r l Hl; [eauto|].
  destruct (Torch.tensor_to d t r) as [o1 r1] eqn:E1.
  destruct (tensor_to_build _ _ _ _ _ E1) as (_ & _ & Hp).
  assert (Ho : exists t1, o1 = Val t1).
  { revert E1. unfold Torch.tensor_to. rewrite Hl.
    destruct (device_eqb (t_device t) d); [intros [= <- _]; eauto|].
    destruct (device_eqb (t_device t) (land_device l));
      intros [= <- _]; eauto. }
  destruct Ho as [t1 ->].
  destruct (IH r1 l) as (ts' & r' & ->); [|eauto].
  now rewrite (place_ext r r1 d Hp).
Qed.

Lemma tensors_to_refused d ts : forall r e,
  Torch.place r d = Exc e ->
  Torch.tensors_to d ts r = (Val ts, r)
  \/ Torch.tensors_to d ts r = (Exc e, r).
Proof.
  induction ts as [|t rest IH]; simpl; intros r e He; [now left|].
  unfold Torch.tensor_to.
  destruct (device_eqb (t_device t) d).
  - destruct (IH r e He) as [-> | ->]; [now left | now right].
  - rewrite He. now right.
Qed.

Lemma tensors_to_exc d ts r e r' :
  Torch.tensors_to d ts r = (Exc e, r') ->
  r' = r /\ Torch.place r d = Exc e.
Proof.
  intros H. destruct (Torch.place r d) as [l|e0] eqn:Hpl.
  - destruct (tensors_to_served d ts r l Hpl) as (ts' & r1 & E). congruence.
  - destruct (tensors_to_refused d ts r e0 Hpl) as [E | E];
      rewrite E in H; [discriminate|].
    injection H as <- <-. now split.
Qed.

(** [Module.to] either raises before anything moved, with the exception of
    the runtime, or places everything. *)
Lemma module_to_raised d m r e r' :
  Torch.module_to d m r = (Exc e, r') ->
  r' = r /\ Torch.place r d = Exc e.
Proof.
  unfold Torch.module_to.
  destruct (Torch.tensors_to d (m_parameters m) r) as [[ps|e1] r1] eqn:E1.
  - destruct (Torch.tensors_to d (m_buffers m) r1) as [[bs|e2] r2] eqn:E2;
      [discriminate|].
    intros [= <- <-].
    destruct (tensors_to_exc _ _ _ _ _ E2) as (-> & He).
    destruct (tensors_to_build _ _ _ _ _ E1) as (_ & _ & Hp).
    rewrite (place_ext r r1 d Hp) in He. split; [|exact He].
    destruct (tensors_to_refused d (m_parameters m) r e2 He) as [E | E];
      congruence.
  - intros [= <- <-]. exact (tensors_to_exc _ _ _ _ _ E1).
Qed.

Lemma module_to_exc d m r e r' :
  Torch.module_to d m r = (Exc e, r') -> r' = r.
Proof. intros E. now destruct (module_to_raised _ _ _ _ _ E). Qed.

Lemma module_to_runtime d m r o r' :
  Torch.module_to d m r = (o, r') ->
  cuda_device_count r' = cuda_device_count r
  /\ XLA_AVAILABLE r' = XLA_AVAILABLE r.
Proof.
  intros E. destruct (module_to_build _ _ _ _ _ E) as (Hc & Hx & _). now split.
Qed.

(** With a refused target, a module with anything elsewhere makes
    [Module.to] raise what the runtime raises, the runtime as it was. *)
Lemma module_to_refused d m r e :
  Torch.place r d = Exc e ->
  resides_on m d = false ->
  Torch.module_to d m r = (Exc e, r).
Proof.
  intros He Hres. unfold Torch.module_to.
  destruct (tensors_to_refused d (m_parameters m) r e He) as [Ep | Ep];
    rewrite Ep; [|reflexivity].
  destruct (tensors_to_refused d (m_buffers m) r e He) as [Eb | Eb];
    rewrite Eb; [|reflexivity].
  exfalso. revert Hres. unfold resides_on.
  assert (Hall : forall ts r1,
            Torch.tensors_to d ts r1 = (Val ts, r1) ->
            Torch.place r1 d = Exc e ->
            forallb (fun t => device_eqb (t_device t) d) ts = true).
  { induction ts as [|t rest IH]; simpl; intros r1 E Hr; [reflexivity|].
    revert E. unfold Torch.tensor_to.
    destruct (device_eqb (t_device t) d) eqn:Eon; [|now rewrite Hr].
    destruct (Torch.tensors_to d rest r1) as [[rest1|e1] r2] eqn:E2;
      [|discriminate].
    intros [= -> ->]. now apply (IH r1). }
  rewrite forallb_app, (Hall _ _ Ep He), (Hall _ _ Eb He). discriminate.
Qed.

(** *** Moving to the host *)

Lemma retarget_there d t : t_device t = d -> retarget d t = t.
Proof. destruct t; unfold retarget; simpl. now intros ->. Qed.

Lemma tensor_to_host t r :
  exists r', Torch.tensor_to cpu_device t r = (Val (retarget cpu_device t), r')
             /\ placement r' = placement r.
Proof.
  unfold Torch.tensor_to.
  destruct (device_eqb (t_device t) cpu_device) eqn:Eon.
  - apply device_eqb_eq in Eon. rewrite (retarget_there _ _ Eon). eauto.
  - unfold Torch.place. simpl. rewrite Eon. eexists. split; [reflexivity|].
    now destruct (String.eqb _ _).
Qed.

Lemma tensors_to_host ts : forall r,
  exists r', Torch.tensors_to cpu_device ts r
             = (Val (map (retarget cpu_device) ts), r')
             /\ placement r' = placement r.
Proof.
  induction ts as [|t rest IH]; simpl; intros r; [eauto|].
  destruct (tensor_to_host t r) as (r1 & -> & Hp1).
  destruct (IH r1) as (r2 & -> & Hp2). exists r2. split; congruence.
Qed.

(** The host always takes a module: [Module.cpu()] never raises, and what it
    leaves is the module it was given, on the host. *)
Lemma module_to_host m r :
  exists r', Torch.module_to cpu_device m r
             = (Val (relocated cpu_device m), r').
Proof.
  unfold Torch.module_to, relocated.
  destruct (tensors_to_host (m_parameters m) r) as (r1 & -> & _).
  destruct (tensors_to_host (m_buffers m) r1) as (r2 & -> & _). eauto.
Qed.

Lemma relocated_resides d m : resides_on (relocated d m) d = true.
Proof.
  unfold resides_on, relocated. simpl. rewrite <- map_app.
  induction (m_parameters m ++ m_buffers m)%list as [|t ts IH]; simpl;
    [reflexivity|].
  now rewrite device_eqb_refl.
Qed.

Lemma relocated_there d m : resides_on m d = true -> relocated d m = m.
Proof.
  intros H. destruct (resides_on_forall _ _ H) as (Hps & Hbs).
  assert (Hmap : forall ts, Forall (fun t => t_device t = d) ts ->
                            map (retarget d) ts = ts).
  { induction 1 as [|t rest Ht _ IH]; simpl; [reflexivity|].
    now rewrite (retarget_there _ _ Ht), IH. }
  unfold relocated. rewrite (Hmap _ Hps), (Hmap _ Hbs). apply module_eta.
Qed.

(** ** The collectives of a single unit *)

(** C1: on the single-device strategy [reduce] is the identity: for every
    input value, whatever reduction operator and extra positional or keyword
    arguments come with it, the call returns that value and leaves the world
    as it found it. *)
Theorem reduce_identity (tensor : Any) (args : list Any)
    (kwargs : list (string * Any)) (w : World) :
  reduce tensor args kwargs w = (Val tensor, w).
Proof. reflexivity. Qed.

(** C5: [all_gather] returns the tensor it was given, for every tensor, every
    group and both values of [sync_grads]. *)
Theorem all_gather_identity (tensor : Tensor) (group : option Any)
    (sync_grads : bool) (w : World) :
  all_gather tensor group sync_grads w = (Val tensor, w).
Proof. destruct sync_grads; reflexivity. Qed.

(** C6: [broadcast] returns the object it was given, for every object and
    every source rank; the result does not depend on the source rank. *)
Theorem broadcast_identity (obj : Any) (src src' : Z) (w : World) :
  broadcast obj src w = (Val obj, w)
  /\ broadcast obj src w = broadcast obj src' w.
Proof. split; reflexivity. Qed.

(** C8: [barrier] is a no-op for any arguments: it returns at once, returns
    nothing, and every field of the strategy and of the runtime is as
    before. *)
Theorem barrier_noop (args : list Any) (kwargs : list (string * Any))
    (w : World) :
  barrier args kwargs w = (Val tt, w).
Proof. reflexivity. Qed.

Section Lifecycle.

Variable Strategy_init :
  option Accelerator -> option CheckpointIO -> option PrecisionPlugin -> M unit.
Variable Strategy_setup : Trainer -> M unit.
Variable Strategy_teardown : M unit.

Local Abbreviation init := (__init__ Strategy_init).
Local Abbreviation do_setup := (setup Strategy_setup).
Local Abbreviation do_teardown := (teardown Strategy_teardown).
Local Abbreviation step := (perform Strategy_setup Strategy_teardown).
Local Abbreviation steps := (run Strategy_setup Strategy_teardown).
Local Abbreviation worlds := (history Strategy_setup Strategy_teardown).

(** *** What the strategy's own code leaves alone *)

Lemma call_to_self d m w :
  self (snd (call_to d m w)) = self w
  \/ exists m', self (snd (call_to d m w)) = set_model (Some m') (self w).
Proof.
  unfold call_to. destruct (Torch.module_to d m (torch w)) as [[m'|e] r];
    simpl; eauto.
Qed.

Lemma call_to_topology d m w : topology (snd (call_to d m w)) = topology w.
Proof.
  unfold topology.
  destruct (call_to_self d m w) as [-> | [m' ->]]; reflexivity.
Qed.

Lemma model_to_device_topology w :
  topology (snd (model_to_device w)) = topology w.
Proof.
  unfold model_to_device, bind, model, root_device, get, ret, raise. simpl.
  destruct (self_model (self w)); simpl; [apply call_to_topology | reflexivity].
Qed.

Lemma on_gpu_pure w :
  on_gpu w =
  (Val (String.eqb (d_type (root_of w)) "cuda"
        && Torch.cuda_is_available (torch w)), w).
Proof.
  unfold on_gpu, bind, root_device, get, ret, root_of. simpl.
  destruct (String.eqb _ _); reflexivity.
Qed.

Lemma on_tpu_pure w :
  on_tpu w =
  (Val (String.eqb (d_type (root_of w)) "xla" && XLA_AVAILABLE (torch w)), w).
Proof.
  unfold on_tpu, bind, root_device, get, ret, root_of. simpl.
  destruct (String.eqb _ _); reflexivity.
Qed.

Lemma teardown_unfold w :
  do_teardown w =
  match Strategy_teardown w with
  | (Val _, w1) => teardown_tail w1
  | (Exc e, w1) => (Exc e, w1)
  end.
Proof. reflexivity. Qed.

Lemma teardown_tail_topology w :
  topology (snd (teardown_tail w)) = topology w.
Proof.
  unfold teardown_tail, bind. rewrite on_gpu_pure.
  destruct (_ && _); [|reflexivity].
  unfold lightning_module, bind, get, ret, raise. simpl.
  destruct (self_model (self w)) as [m|]; [|reflexivity].
  unfold call_cpu, torch_cuda_empty_cache, modify.
  pose proof (call_to_topology cpu_device m w) as H.
  destruct (call_to cpu_device m w) as [[u|e] w1]; simpl in *; exact H.
Qed.

Section Topology.

Hypothesis setup_hook_topology :
  forall tr, keeps topology (Strategy_setup tr).
Hypothesis teardown_hook_topology : keeps topology Strategy_teardown.

Lemma perform_topology c w : topology (step c w) = topology w.
Proof.
  destruct c; simpl; try reflexivity.
  - apply model_to_device_topology.
  - unfold setup, bind.
    pose proof (model_to_device_topology w) as H.
    destruct (model_to_device w) as [[u|e] w1]; simpl in *; [|exact H].
    now rewrite setup_hook_topology.
  - rewrite teardown_unfold.
    pose proof (teardown_hook_topology w) as H.
    destruct (Strategy_teardown w) as [[u|e] w1]; simpl in *; [|exact H].
    now rewrite teardown_tail_topology.
  - now rewrite on_gpu_pure.
  - now rewrite on_tpu_pure.
Qed.

Lemma history_topology cs : forall w,
  Forall (fun w' => topology w' = topology w) (worlds cs w).
Proof.
  induction cs as [|c rest IH]; intros w; simpl.
  - now constructor.
  - constructor; [reflexivity|].
    eapply Forall_impl; [|apply IH].
    simpl. intros w' ->. apply perform_topology.
Qed.

Lemma init_topology dev acc cio pp w0 :
  fst (init dev acc cio pp w0) = Val tt ->
  topology (snd (init dev acc cio pp w0)) = (0, 0, 1)%Z.
Proof.
  unfold __init__, bind, modify.
  destruct (Strategy_init acc cio pp w0) as [[u|e] w1]; simpl;
    [reflexivity | discriminate].
Qed.

(** C2: the topology of the single-device strategy is fixed.  Once
    [__init__] has returned, [global_rank] and [local_rank] are 0 and
    [world_size] is 1 in every world a caller can observe: right after
    construction, and before and after each call of any sequence of
    [reduce], [all_gather], [barrier], [broadcast], [model_to_device],
    [setup], [teardown] and the property reads, whether a call returns
    or raises.  The base-class hooks, which are not in the sources, are
    asked to leave the three attributes alone. *)
Theorem topology_invariant dev acc cio pp w0 cs :
  fst (__init__ Strategy_init dev acc cio pp w0) = Val tt ->
  Forall (fun w => global_rank (self w) = 0%Z
                   /\ local_rank (self w) = 0%Z
                   /\ world_size (self w) = 1%Z)
         (history Strategy_setup Strategy_teardown cs
            (snd (__init__ Strategy_init dev acc cio pp w0))).
Proof.
  intros Hinit. apply init_topology in Hinit.
  eapply Forall_impl; [|apply history_topology].
  simpl. intros w Hw. rewrite Hinit in Hw. unfold topology in Hw.
  injection Hw as Hg Hl Hs. auto.
Qed.

End Topology.

(** *** Coordinator *)

Lemma run_app cs1 cs2 w : steps (cs1 ++ cs2) w = steps cs2 (steps cs1 w).
Proof. unfold run. apply fold_left_app. Qed.

(** C7: [is_global_zero] answers [True] on every call, after any sequence
    of earlier calls on the strategy, and reading it changes nothing. *)
Theorem is_global_zero_always cs w :
  is_global_zero (run Strategy_setup Strategy_teardown cs w)
    = (Val true, run Strategy_setup Strategy_teardown cs w)
  /\ run Strategy_setup Strategy_teardown (cs ++ [CallIsGlobalZero]) w
     = run Strategy_setup Strategy_teardown cs w.
Proof.
  split; [reflexivity|]. now rewrite run_app.
Qed.

End Lifecycle.

(** A run of the whole lifecycle on one CUDA device. *)
Lemma topology_invariant_witness :
  Forall (fun w => global_rank (self w) = 0%Z
                   /\ local_rank (self w) = 0%Z
                   /\ world_size (self w) = 1%Z)
    (history Sample.base_setup Sample.base_teardown
       [CallModelToDevice; CallSetup (TrainerRef 0);
        CallReduce (PyInt 3) [PyStr "mean"] []; CallBarrier [] [];
        CallTeardown; CallTeardown]
       (snd (__init__ Sample.base_init Sample.cuda0 None None None
               Sample.blank))).
Proof.
  apply (topology_invariant Sample.base_init Sample.base_setup
           Sample.base_teardown).
  - intros tr w. reflexivity.
  - intros w. reflexivity.
  - reflexivity.
Defined.

(** ** Placement *)

Lemma model_to_device_unfold w :
  model_to_device w =
  match self_model (self w) with
  | None => (Exc (AttributeError "'NoneType' object has no attribute 'to'"), w)
  | Some md => call_to (self_device (self w)) md w
  end.
Proof.
  unfold model_to_device, bind, model, root_device, get, ret, raise. simpl.
  now destruct (self_model (self w)).
Qed.

(** A call that raised left the world as it was. *)
Lemma model_to_device_exc w e w' :
  model_to_device w = (Exc e, w') -> w' = w.
Proof.
  rewrite model_to_device_unfold.
  destruct (self_model (self w)) as [m|]; [|now intros [= _ <-]].
  unfold call_to.
  destruct (Torch.module_to (self_device (self w)) m (torch w))
    as [[m'|e'] r] eqn:E; [discriminate|].
  intros [= _ <-]. apply module_to_exc in E. subst r. apply world_eta.
Qed.

(** A call that returned finds nothing to do when it is made again. *)
Lemma model_to_device_val w w' :
  model_to_device w = (Val tt, w') ->
  root_of w' = root_of w /\ model_to_device w' = (Val tt, w').
Proof.
  rewrite model_to_device_unfold.
  destruct (self_model (self w)) as [m|]; [|discriminate].
  unfold call_to.
  destruct (Torch.module_to (self_device (self w)) m (torch w))
    as [[m'|e'] r] eqn:E; [|discriminate].
  intros [= <-]. split; [reflexivity|].
  rewrite model_to_device_unfold. simpl. unfold call_to. simpl.
  now rewrite (module_to_again _ _ _ _ _ E).
Qed.

(** C9, as amended: [model_to_device] is idempotent.  For any model, or
    none, and any root device, the world after two calls in succession is
    the world after one, so the model's placement is the same; and the
    second call ends as the first did: it returns when the first returned,
    and raises only when the first raised, with the same exception. *)
Theorem model_to_device_idempotent (w : World) :
  snd (model_to_device (snd (model_to_device w))) = snd (model_to_device w)
  /\ fst (model_to_device (snd (model_to_device w)))
     = fst (model_to_device w).
Proof.
  destruct (model_to_device w) as [[[]|e] w1] eqn:E; simpl.
  - destruct (model_to_device_val _ _ E) as (_ & Hagain).
    rewrite Hagain. now split.
  - pose proof (model_to_device_exc _ _ _ E) as Hw. subst w1.
    rewrite E. now split.
Qed.

(** Counterexample to C9 as first stated: a model built on the host, the
    root device [cuda:0], a machine without a CUDA device.  The strategy
    refers to a model, and the second of two calls in succession raises, as
    the first did. *)
Lemma model_to_device_second_call_raises :
  model_of Sample.no_cuda_world = Some (Sample.weights cpu_device)
  /\ (exists e : exn,
        fst (model_to_device (snd (model_to_device Sample.no_cuda_world)))
        = Exc e)
  /\ fst (model_to_device (snd (model_to_device Sample.no_cuda_world)))
     <> Val tt.
Proof.
  split; [reflexivity|]. split; [eexists; reflexivity | discriminate].
Qed.

(** The scenario of the specification: a model built on the host, root
    device [cuda:0] on a machine that has it.  After one call the model is
    on [cuda:0]; the second call returns and changes nothing. *)
Example model_to_device_twice_on_cuda :
  fst (model_to_device Sample.host_model_world) = Val tt
  /\ model_of (snd (model_to_device Sample.host_model_world))
     = Some (Sample.weights Sample.cuda0)
  /\ model_to_device (snd (model_to_device Sample.host_model_world))
     = (Val tt, snd (model_to_device Sample.host_model_world)).
Proof. repeat split. Qed.

(** ** Teardown *)

Lemma teardown_tail_off w :
  String.eqb (d_type (root_of w)) "cuda" && Torch.cuda_is_available (torch w)
    = false ->
  teardown_tail w = (Val tt, w).
Proof.
  intros Hoff. unfold teardown_tail, bind. rewrite on_gpu_pure, Hoff.
  reflexivity.
Qed.

Lemma teardown_tail_gpu w m :
  String.eqb (d_type (root_of w)) "cuda" && Torch.cuda_is_available (torch w)
    = true ->
  model_of w = Some m ->
  exists r',
    Torch.module_to cpu_device m (torch w)
    = (Val (relocated cpu_device m), r')
    /\ teardown_tail w
       = (Val tt, mkWorld (set_model (Some (relocated cpu_device m)) (self w))
                          (Torch.cuda_empty_cache r')).
Proof.
  intros Hgpu Hm. unfold model_of in Hm.
  destruct (module_to_host m (torch w)) as (r' & E).
  exists r'. split; [exact E|].
  unfold teardown_tail, bind. rewrite on_gpu_pure, Hgpu.
  unfold lightning_module, bind, get, ret. simpl. rewrite Hm.
  unfold call_cpu, call_to. rewrite E. reflexivity.
Qed.

Section Teardown.

Variable Strategy_teardown : M unit.

Local Abbreviation do_teardown := (teardown Strategy_teardown).

Hypothesis hook_returns : returns Strategy_teardown.
Hypothesis hook_root : keeps root_of Strategy_teardown.
Hypothesis hook_gpus : keeps gpus_of Strategy_teardown.
Hypothesis hook_model : keeps model_of Strategy_teardown.

Lemma teardown_after_hook w :
  do_teardown w = teardown_tail (snd (Strategy_teardown w)).
Proof.
  unfold teardown, bind. fold teardown_tail.
  pose proof (hook_returns w) as H.
  destruct (Strategy_teardown w) as [[[]|e] w1]; simpl in *;
    [reflexivity | discriminate].
Qed.

Lemma hook_on_gpu w :
  String.eqb (d_type (root_of (snd (Strategy_teardown w)))) "cuda"
  && Torch.cuda_is_available (torch (snd (Strategy_teardown w)))
  = String.eqb (d_type (root_of w)) "cuda"
    && Torch.cuda_is_available (torch w).
Proof.
  rewrite hook_root. unfold Torch.cuda_is_available.
  pose proof (hook_gpus w) as H. unfold gpus_of in H. now rewrite H.
Qed.

(** On a CUDA device with a model attached, [teardown] returns, the
    strategy refers to that model relocated to the host, the cache is empty,
    and device and runtime are as a further [teardown] needs them. *)
Lemma teardown_gpu w m :
  String.eqb (d_type (root_of w)) "cuda" && Torch.cuda_is_available (torch w)
    = true ->
  model_of w = Some m ->
  fst (do_teardown w) = Val tt
  /\ model_of (snd (do_teardown w)) = Some (relocated cpu_device m)
  /\ cache_of (snd (do_teardown w)) = 0
  /\ root_of (snd (do_teardown w)) = root_of w
  /\ gpus_of (snd (do_teardown w)) = gpus_of w.
Proof.
  intros Hgpu Hm. rewrite teardown_after_hook.
  rewrite <- hook_on_gpu in Hgpu. rewrite <- hook_model in Hm.
  destruct (teardown_tail_gpu _ _ Hgpu Hm) as (r' & E & ->). simpl.
  destruct (module_to_runtime _ _ _ _ _ E) as (Hcount & _).
  repeat split.
  - unfold root_of. simpl. apply hook_root.
  - unfold gpus_of. simpl. rewrite Hcount. apply hook_gpus.
Qed.

(** Off a CUDA device, [teardown] is the base hook. *)
Lemma teardown_off w :
  String.eqb (d_type (root_of w)) "cuda" && Torch.cuda_is_available (torch w)
    = false ->
  do_teardown w = Strategy_teardown w.
Proof.
  intros Hoff. rewrite teardown_after_hook.
  rewrite <- hook_on_gpu in Hoff. rewrite (teardown_tail_off _ Hoff).
  pose proof (hook_returns w) as H.
  destruct (Strategy_teardown w) as [[[]|e] w1]; simpl in *;
    [reflexivity | discriminate].
Qed.

(** With a model attached, [teardown] returns on any root device and keeps
    the strategy referring to a model. *)
Lemma teardown_with_model w m :
  model_of w = Some m ->
  fst (do_teardown w) = Val tt
  /\ exists m', model_of (snd (do_teardown w)) = Some m'.
Proof.
  intros Hm.
  destruct (String.eqb (d_type (root_of w)) "cuda"
            && Torch.cuda_is_available (torch w)) eqn:Hgpu.
  - destruct (teardown_gpu w m Hgpu Hm) as (Hok & Hm' & _). eauto.
  - rewrite (teardown_off w Hgpu). split; [apply hook_returns|].
    exists m. now rewrite hook_model.
Qed.

(** C3, as amended: with the model resident on the root device, [teardown]
    does not raise and a second [teardown] does not raise either, on any
    root device; and when the root device is a CUDA device and the CUDA
    runtime reports available, after [teardown] the strategy refers to the
    same model, every parameter and buffer with its elements and gradient
    flag, now residing on host memory, and the CUDA cache is released.  The
    base-class hook, which is not in the sources, is asked to return and to
    leave the root device, the device count and the model reference
    alone. *)
Theorem teardown_cuda_releases (w : World) (m : Module) :
  model_of w = Some m ->
  resides_on m (root_of w) = true ->
  fst (teardown Strategy_teardown w) = Val tt
  /\ fst (teardown Strategy_teardown (snd (teardown Strategy_teardown w)))
     = Val tt
  /\ (d_type (root_of w) = "cuda" ->
      Torch.cuda_is_available (torch w) = true ->
      model_of (snd (teardown Strategy_teardown w))
        = Some (relocated cpu_device m)
      /\ model_resides_on (snd (teardown Strategy_teardown w)) cpu_device
         = true
      /\ cache_of (snd (teardown Strategy_teardown w)) = 0).
Proof.
  intros Hm _.
  destruct (teardown_with_model w m Hm) as (Hok & m' & Hm').
  split; [exact Hok|]. split.
  - now destruct (teardown_with_model _ m' Hm') as (Hok' & _).
  - intros Hty Hav.
    assert (Hgpu : String.eqb (d_type (root_of w)) "cuda"
                   && Torch.cuda_is_available (torch w) = true).
    { rewrite Hty, Hav. reflexivity. }
    destruct (teardown_gpu w m Hgpu Hm) as (_ & Hrel & Hcache & _).
    repeat split; [exact Hrel | | exact Hcache].
    unfold model_resides_on. unfold model_of in Hrel. rewrite Hrel.
    apply relocated_resides.
Qed.

Hypothesis hook_cache : keeps cache_of Strategy_teardown.


End Teardown.

(** One CUDA device with the model resident on it. *)
Lemma teardown_cuda_releases_witness :
  fst (teardown Sample.base_teardown Sample.gpu_world) = Val tt
  /\ fst (teardown Sample.base_teardown
            (snd (teardown Sample.base_teardown Sample.gpu_world))) = Val tt
  /\ model_of (snd (teardown Sample.base_teardown Sample.gpu_world))
     = Some (Sample.weights cpu_device)
  /\ model_resides_on (snd (teardown Sample.base_teardown Sample.gpu_world))
       cpu_device = true
  /\ cache_of (snd (teardown Sample.base_teardown Sample.gpu_world)) = 0.
Proof.
  destruct (teardown_cuda_releases Sample.base_teardown)
    with (w := Sample.gpu_world) (m := Sample.weights Sample.cuda0)
    as (Hok & Hagain & Hgpu).
  - intros w. reflexivity.
  - intros w. reflexivity.
  - intros w. reflexivity.
  - intros w. reflexivity.
  - reflexivity.
  - reflexivity.
  - split; [exact Hok|]. split; [exact Hagain|].
    apply Hgpu; reflexivity.
Defined.

(** Counterexample to C3 as first stated, on an XLA device: the root device
    is not the host, the model is resident on it, [teardown] returns, and the
    model is still on the XLA device and not on the host. *)
Lemma teardown_xla_model_stays :
  d_type (root_of Sample.xla_world) <> "cpu"
  /\ model_resides_on Sample.xla_world (root_of Sample.xla_world) = true
  /\ fst (teardown Sample.base_teardown Sample.xla_world) = Val tt
  /\ model_resides_on (snd (teardown Sample.base_teardown Sample.xla_world))
       cpu_device = false
  /\ model_resides_on (snd (teardown Sample.base_teardown Sample.xla_world))
       Sample.xla0 = true.
Proof.
  split; [discriminate|]. repeat split.
Qed.



(** An XLA device: [on_gpu] is false, [teardown] is the base hook and the
    model stays on the XLA device. *)
Example teardown_on_xla :
  on_gpu Sample.xla_world = (Val false, Sample.xla_world)
  /\ teardown Sample.base_teardown Sample.xla_world
     = Sample.base_teardown Sample.xla_world
  /\ model_of (snd (teardown Sample.base_teardown Sample.xla_world))
     = Some (Sample.weights Sample.xla0).
Proof. repeat split. Qed.

(** A [cuda] root device without a CUDA runtime: [on_gpu] is false and the
    model is not touched. *)
Example teardown_without_cuda_runtime :
  on_gpu Sample.no_cuda_world = (Val false, Sample.no_cuda_world)
  /\ teardown Sample.base_teardown Sample.no_cuda_world
     = (Val tt, Sample.no_cuda_world).
Proof. split; reflexivity. Qed.

(** ** Lifecycle *)

(** Counterexample to C4 as first stated: on a strategy that was
    constructed and never set up, [reduce] returns its argument; no exception
    of any kind comes out. *)
Lemma reduce_before_setup_no_error :
  fst (__init__ Sample.base_init Sample.cuda0 None None None Sample.blank)
    = Val tt
  /\ fst (reduce (PyInt 5) [PyStr "mean"] []
            (snd (__init__ Sample.base_init Sample.cuda0 None None None
                    Sample.blank)))
     = Val (PyInt 5)
  /\ ~ (exists e : exn,
          fst (reduce (PyInt 5) [PyStr "mean"] []
                 (snd (__init__ Sample.base_init Sample.cuda0 None None None
                         Sample.blank)))
          = Exc e).
Proof.
  repeat split. intros [e He]. discriminate He.
Qed.

(** C4, as amended: on a strategy that was constructed and on which [setup]
    has not been called, whatever other calls were made, [reduce] returns its
    input and leaves the world as it is; no lifecycle error is signalled,
    the strategy keeps no lifecycle state. *)
Theorem reduce_before_setup_returns
    (Strategy_init : option Accelerator -> option CheckpointIO ->
                     option PrecisionPlugin -> M unit)
    (Strategy_setup : Trainer -> M unit) (Strategy_teardown : M unit)
    (dev : device) (acc : option Accelerator) (cio : option CheckpointIO)
    (pp : option PrecisionPlugin) (w0 : World) (cs : list call)
    (tensor : Any) (args : list Any) (kwargs : list (string * Any)) :
  fst (__init__ Strategy_init dev acc cio pp w0) = Val tt ->
  existsb is_setup cs = false ->
  let w := run Strategy_setup Strategy_teardown cs
             (snd (__init__ Strategy_init dev acc cio pp w0)) in
  reduce tensor args kwargs w = (Val tensor, w)
  /\ forall e : exn, fst (reduce tensor args kwargs w) <> Exc e.
Proof.
  intros _ _ w. split; [reflexivity|]. intros e. discriminate.
Qed.

(** A strategy that was built and torn down but never set up. *)
Lemma reduce_before_setup_returns_witness :
  let w := run Sample.base_setup Sample.base_teardown
             [CallBarrier [] []; CallTeardown]
             (snd (__init__ Sample.base_init Sample.cuda0 None None None
                     Sample.blank)) in
  reduce (PyInt 5) [PyStr "sum"] [] w = (Val (PyInt 5), w)
  /\ forall e : exn, fst (reduce (PyInt 5) [PyStr "sum"] [] w) <> Exc e.
Proof.
  apply (reduce_before_setup_returns Sample.base_init Sample.base_setup
           Sample.base_teardown).
  - reflexivity.
  - reflexivity.
Defined.

(** ** The root device and the capability accessors *)

Lemma call_to_capabilities d m w :
  capabilities (snd (call_to d m w)) = capabilities w.
Proof.
  unfold call_to, capabilities, root_of, gpus_of.
  destruct (Torch.module_to d m (torch w)) as [o r'] eqn:E.
  destruct (module_to_runtime _ _ _ _ _ E) as (Hc & Hx).
  destruct o; simpl; now rewrite Hc, Hx.
Qed.

Lemma model_to_device_capabilities w :
  capabilities (snd (model_to_device w)) = capabilities w.
Proof.
  rewrite model_to_device_unfold.
  destruct (self_model (self w)); [apply call_to_capabilities | reflexivity].
Qed.

Lemma teardown_tail_capabilities w :
  capabilities (snd (teardown_tail w)) = capabilities w.
Proof.
  unfold teardown_tail, bind. rewrite on_gpu_pure.
  destruct (_ && _); [|reflexivity].
  unfold lightning_module, bind, get, ret, raise. simpl.
  destruct (self_model (self w)) as [m|]; [|reflexivity].
  unfold call_cpu, torch_cuda_empty_cache, modify.
  pose proof (call_to_capabilities cpu_device m w) as H.
  destruct (call_to cpu_device m w) as [[u|e] w1]; simpl in *; exact H.
Qed.

Section Capabilities.

Variable Strategy_init :
  option Accelerator -> option CheckpointIO -> option PrecisionPlugin -> M unit.
Variable Strategy_setup : Trainer -> M unit.
Variable Strategy_teardown : M unit.

Hypothesis setup_hook_capabilities :
  forall tr, keeps capabilities (Strategy_setup tr).
Hypothesis teardown_hook_capabilities : keeps capabilities Strategy_teardown.

Lemma perform_capabilities c w :
  capabilities (perform Strategy_setup Strategy_teardown c w) = capabilities w.
Proof.
  destruct c; simpl; try reflexivity.
  - apply model_to_device_capabilities.
  - unfold setup, bind.
    pose proof (model_to_device_capabilities w) as H.
    destruct (model_to_device w) as [[u|e] w1]; simpl in *; [|exact H].
    now rewrite setup_hook_capabilities.
  - rewrite teardown_unfold.
    pose proof (teardown_hook_capabilities w) as H.
    destruct (Strategy_teardown w) as [[u|e] w1]; simpl in *; [|exact H].
    now rewrite teardown_tail_capabilities.
  - now rewrite on_gpu_pure.
  - now rewrite on_tpu_pure.
Qed.

Lemma history_capabilities cs : forall w,
  Forall (fun w' => capabilities w' = capabilities w)
         (history Strategy_setup Strategy_teardown cs w).
Proof.
  induction cs as [|c rest IH]; intros w; simpl.
  - now constructor.
  - constructor; [reflexivity|].
    eapply Forall_impl; [|apply IH].
    simpl. intros w' ->. apply perform_capabilities.
Qed.

(** The root device of a strategy is the device its constructor was given,
    for as long as the strategy is used: once [__init__] has returned,
    [root_device] answers that device in every world a caller can observe,
    before and after each call of any sequence, and reading it changes
    nothing.  The base-class hooks are asked to leave the root device and
    what the runtime reports alone. *)
Theorem root_device_is_constructor_device dev acc cio pp w0 cs :
  fst (__init__ Strategy_init dev acc cio pp w0) = Val tt ->
  Forall (fun w => root_device w = (Val dev, w))
         (history Strategy_setup Strategy_teardown cs
            (snd (__init__ Strategy_init dev acc cio pp w0))).
Proof.
  intros Hinit.
  assert (Hdev :
    root_of (snd (__init__ Strategy_init dev acc cio pp w0)) = dev).
  { revert Hinit. unfold __init__, bind, modify.
    destruct (Strategy_init acc cio pp w0) as [[u|e] w1]; simpl;
      [reflexivity | discriminate]. }
  eapply Forall_impl; [|apply history_capabilities].
  simpl. intros w Hw. unfold capabilities in Hw.
  injection Hw as Hroot _ _. unfold root_device, bind, get, ret. simpl.
  unfold root_of in Hroot, Hdev. now rewrite Hroot, Hdev.
Qed.

(** The answers of [on_gpu] and [on_tpu] never change while a strategy is
    used: in every world a caller can observe along any sequence of calls,
    both accessors answer what they answered at the start.  The base-class
    hooks are asked to leave the root device and what the runtime reports
    alone. *)
Theorem capability_answers_are_stable w cs :
  Forall (fun w' => fst (on_gpu w') = fst (on_gpu w)
                    /\ fst (on_tpu w') = fst (on_tpu w))
         (history Strategy_setup Strategy_teardown cs w).
Proof.
  eapply Forall_impl; [|apply history_capabilities].
  simpl. intros w' Hw. unfold capabilities, gpus_of in Hw.
  injection Hw as Hroot Hgpus Hxla.
  rewrite !on_gpu_pure, !on_tpu_pure. simpl.
  unfold Torch.cuda_is_available. now rewrite Hroot, Hgpus, Hxla.
Qed.

End Capabilities.

(** A CUDA strategy through its whole lifecycle. *)
Lemma root_device_is_constructor_device_witness :
  Forall (fun w => root_device w = (Val Sample.cuda0, w))
    (history Sample.base_setup Sample.base_teardown
       [CallSetup (TrainerRef 0); CallAllGather
          (mkTensor [1]%Z cpu_device false) None true; CallTeardown]
       (snd (__init__ Sample.base_init Sample.cuda0 None None None
               Sample.blank))).
Proof.
  apply (root_device_is_constructor_device Sample.base_init Sample.base_setup
           Sample.base_teardown).
  - intros tr w. reflexivity.
  - intros w. reflexivity.
  - reflexivity.
Defined.

(** Setup and teardown on one CUDA device, model built on the host. *)
Lemma capability_answers_are_stable_witness :
  Forall (fun w' => fst (on_gpu w') = fst (on_gpu Sample.host_model_world)
                    /\ fst (on_tpu w') = fst (on_tpu Sample.host_model_world))
    (history Sample.base_setup Sample.base_teardown
       [CallSetup (TrainerRef 0); CallTeardown] Sample.host_model_world).
Proof.
  apply (capability_answers_are_stable Sample.base_setup Sample.base_teardown).
  - intros tr w. reflexivity.
  - intros w. reflexivity.
Defined.

(** [on_gpu] and [on_tpu] exclude each other: one root device has one type,
    so when [on_gpu] answers [True], [on_tpu] answers [False], whatever the
    runtime and the installed packages report. *)
Theorem on_gpu_excludes_on_tpu (w : World) :
  fst (on_gpu w) = Val true -> fst (on_tpu w) = Val false.
Proof.
  rewrite on_gpu_pure, on_tpu_pure. simpl. intros [= H].
  apply andb_prop in H as [Hty _]. apply String.eqb_eq in Hty.
  now rewrite Hty.
Qed.

Lemma on_gpu_excludes_on_tpu_witness :
  fst (on_tpu (mkWorld (self Sample.gpu_world) (Sample.runtime 1 true 0)))
  = Val false.
Proof.
  apply (on_gpu_excludes_on_tpu
           (mkWorld (self Sample.gpu_world) (Sample.runtime 1 true 0))).
  reflexivity.
Defined.

(** ** Placement: edges *)

(** [model_to_device] on a model that already resides on the root device
    returns and changes nothing, also when the runtime no longer offers
    that device. *)
Theorem model_to_device_resident_noop (w : World) :
  model_resides_on w (root_of w) = true ->
  model_to_device w = (Val tt, w).
Proof.
  unfold model_resides_on, root_of. intros Hres.
  rewrite model_to_device_unfold.
  destruct (self_model (self w)) as [m|] eqn:Hm; [|discriminate].
  unfold call_to. rewrite (module_to_there _ _ (torch w) Hres).
  destruct w as [s r]. simpl in *. f_equal. f_equal.
  destruct s; simpl in *. now subst.
Qed.

Lemma model_to_device_resident_noop_witness :
  model_to_device Sample.gpu_world = (Val tt, Sample.gpu_world).
Proof.
  apply (model_to_device_resident_noop Sample.gpu_world). reflexivity.
Defined.

Section SetupEdges.

Variable Strategy_setup : Trainer -> M unit.

(** [setup] on a strategy that refers to no model raises the
    [AttributeError] of [self.model.to]: the world is untouched and the base
    class's [setup] is never reached, whatever it would do. *)
Theorem setup_without_model (trainer : Trainer) (w : World) :
  model_of w = None ->
  setup Strategy_setup trainer w
  = (Exc (AttributeError "'NoneType' object has no attribute 'to'"), w).
Proof.
  unfold model_of. intros Hm. unfold setup, bind.
  rewrite model_to_device_unfold, Hm. reflexivity.
Qed.

(** [setup] with a root device the runtime refuses, and a model that is not
    already there, raises what torch raises: nothing is relocated, the world
    is as it was, there is no fallback to another device, and the base
    class's [setup] is never reached. *)
Theorem setup_unavailable_device (trainer : Trainer) (w : World) (m : Module)
    (e : exn) :
  model_of w = Some m ->
  Torch.place (torch w) (root_of w) = Exc e ->
  resides_on m (root_of w) = false ->
  setup Strategy_setup trainer w = (Exc e, w).
Proof.
  unfold model_of, root_of. intros Hm He Hres. unfold setup, bind.
  rewrite model_to_device_unfold, Hm. unfold call_to.
  rewrite (module_to_refused _ _ _ _ He Hres). now rewrite world_eta.
Qed.

End SetupEdges.

(** A strategy fresh from its constructor, base class keeping no model. *)
Lemma setup_without_model_witness :
  setup Sample.base_setup (TrainerRef 0)
    (snd (__init__ Sample.base_init Sample.cuda0 None None None Sample.blank))
  = (Exc (AttributeError "'NoneType' object has no attribute 'to'"),
     snd (__init__ Sample.base_init Sample.cuda0 None None None Sample.blank)).
Proof.
  apply (setup_without_model Sample.base_setup). reflexivity.
Defined.

(** A [cuda] root device on a machine without a CUDA device. *)
Lemma setup_unavailable_device_witness :
  setup Sample.base_setup (TrainerRef 0) Sample.no_cuda_world
  = (Exc (RuntimeError "CUDA error: invalid device ordinal"),
     Sample.no_cuda_world).
Proof.
  apply (setup_unavailable_device Sample.base_setup (TrainerRef 0)
           Sample.no_cuda_world (Sample.weights cpu_device));
    reflexivity.
Defined.

(** ** From the host to the device and back *)

(** A host tensor sent to a device that takes it with its elements. *)
Lemma tensor_to_served_from_host d l t r :
  Torch.place r d = Val l -> land_keeps l = true ->
  device_eqb cpu_device d = false ->
  t_device t = cpu_device ->
  Torch.tensor_to d t r = (Val (retarget (land_device l) t), r).
Proof.
  intros Hl Hkeep Hd Ht. unfold Torch.tensor_to. rewrite Ht, Hd, Hl.
  destruct (device_eqb cpu_device (land_device l)) eqn:Eland.
  - apply device_eqb_eq in Eland. rewrite <- Eland.
    now rewrite (retarget_there _ _ Ht).
  - unfold retarget. now rewrite Hkeep.
Qed.

Lemma tensors_to_served_from_host d l ts r :
  Torch.place r d = Val l -> land_keeps l = true ->
  device_eqb cpu_device d = false ->
  Forall (fun t => t_device t = cpu_device) ts ->
  Torch.tensors_to d ts r = (Val (map (retarget (land_device l)) ts), r).
Proof.
  intros Hl Hkeep Hd. induction 1 as [|t rest Ht _ IH]; simpl; [reflexivity|].
  now rewrite (tensor_to_served_from_host _ _ _ _ Hl Hkeep Hd Ht), IH.
Qed.

Lemma module_to_served_from_host d l m r :
  Torch.place r d = Val l -> land_keeps l = true ->
  device_eqb cpu_device d = false ->
  resides_on m cpu_device = true ->
  Torch.module_to d m r = (Val (relocated (land_device l) m), r).
Proof.
  intros Hl Hkeep Hd Hres.
  destruct (resides_on_forall _ _ Hres) as (Hps & Hbs).
  unfold Torch.module_to.
  rewrite (tensors_to_served_from_host _ _ _ _ Hl Hkeep Hd Hps).
  now rewrite (tensors_to_served_from_host _ _ _ _ Hl Hkeep Hd Hbs).
Qed.

Lemma relocated_twice d d' m : relocated d (relocated d' m) = relocated d m.
Proof.
  unfold relocated. simpl. rewrite !map_map. reflexivity.
Qed.

Section RoundTrip.

Variable Strategy_setup : Trainer -> M unit.
Variable Strategy_teardown : M unit.

Hypothesis setup_hook_returns : forall tr, returns (Strategy_setup tr).
Hypothesis setup_hook_root : forall tr, keeps root_of (Strategy_setup tr).
Hypothesis setup_hook_gpus : forall tr, keeps gpus_of (Strategy_setup tr).
Hypothesis setup_hook_model : forall tr, keeps model_of (Strategy_setup tr).
Hypothesis teardown_hook_returns : returns Strategy_teardown.
Hypothesis teardown_hook_root : keeps root_of Strategy_teardown.
Hypothesis teardown_hook_gpus : keeps gpus_of Strategy_teardown.
Hypothesis teardown_hook_model : keeps model_of Strategy_teardown.

(** A whole run on a CUDA device gives the model back as it was.  With a
    [cuda] root device, indexed or not, that the runtime serves with the
    tensors' elements, and a model built on the host: [setup] returns with
    the model on the device the runtime resolved the root device to, and
    the [teardown] that follows returns with the very module the run started
    from (same parameters and buffers, on the host again) and an empty CUDA
    cache.  The base-class hooks are asked to return and to leave root
    device, device count and model reference alone. *)
Theorem setup_teardown_round_trip (trainer : Trainer) (w : World) (m : Module)
    (l : Landing) :
  d_type (root_of w) = "cuda" ->
  Torch.cuda_is_available (torch w) = true ->
  Torch.place (torch w) (root_of w) = Val l ->
  land_keeps l = true ->
  model_of w = Some m ->
  resides_on m cpu_device = true ->
  fst (setup Strategy_setup trainer w) = Val tt
  /\ model_of (snd (setup Strategy_setup trainer w))
     = Some (relocated (land_device l) m)
  /\ model_resides_on (snd (setup Strategy_setup trainer w)) (land_device l)
     = true
  /\ fst (teardown Strategy_teardown (snd (setup Strategy_setup trainer w)))
     = Val tt
  /\ model_of (snd (teardown Strategy_teardown
                      (snd (setup Strategy_setup trainer w)))) = Some m
  /\ cache_of (snd (teardown Strategy_teardown
                      (snd (setup Strategy_setup trainer w)))) = 0.
Proof.
  intros Hty Hav Hl Hkeep Hm Hhost.
  assert (Hd : device_eqb cpu_device (root_of w) = false).
  { unfold device_eqb. simpl. now rewrite Hty. }
  pose proof (module_to_served_from_host _ _ _ (torch w) Hl Hkeep Hd Hhost)
    as E.
  set (m1 := relocated (land_device l) m) in *.
  set (wm := mkWorld (set_model (Some m1) (self w)) (torch w)).
  assert (Hmtd : model_to_device w = (Val tt, wm)).
  { rewrite model_to_device_unfold. unfold model_of in Hm. rewrite Hm.
    unfold call_to. unfold root_of in E. now rewrite E. }
  assert (Hsetup : setup Strategy_setup trainer w = Strategy_setup trainer wm).
  { unfold setup, bind. now rewrite Hmtd. }
  rewrite Hsetup.
  set (w1 := snd (Strategy_setup trainer wm)).
  assert (Hm1 : model_of w1 = Some m1).
  { unfold w1. now rewrite setup_hook_model. }
  assert (Hroot1 : root_of w1 = root_of w).
  { unfold w1. now rewrite setup_hook_root. }
  assert (Hgpus1 : gpus_of w1 = gpus_of w).
  { unfold w1. now rewrite setup_hook_gpus. }
  assert (Hgpu1 : String.eqb (d_type (root_of w1)) "cuda"
                  && Torch.cuda_is_available (torch w1) = true).
  { rewrite Hroot1, Hty. simpl. unfold gpus_of in Hgpus1.
    unfold Torch.cuda_is_available in *. now rewrite Hgpus1. }
  destruct (teardown_gpu _ teardown_hook_returns teardown_hook_root
              teardown_hook_gpus teardown_hook_model w1 m1 Hgpu1 Hm1)
    as (Hok & Hrel & Hcache & _).
  split; [apply setup_hook_returns|]. split; [exact Hm1|]. split.
  { unfold model_resides_on. unfold model_of in Hm1. rewrite Hm1.
    apply relocated_resides. }
  split; [exact Hok|]. split; [|exact Hcache].
  rewrite Hrel. unfold m1. rewrite relocated_twice.
  now rewrite (relocated_there _ _ Hhost).
Qed.

End RoundTrip.

(** The scenario of a training run: model built on the host, root device an
    index-less [cuda] on a machine with one CUDA device, where the model
    lands on [cuda:0]. *)
Lemma setup_teardown_round_trip_witness :
  let w := mkWorld (set_device (Device "cuda" None)
                      (self Sample.host_model_world))
                   (torch Sample.host_model_world) in
  fst (setup Sample.base_setup (TrainerRef 0) w) = Val tt
  /\ model_of (snd (setup Sample.base_setup (TrainerRef 0) w))
     = Some (Sample.weights Sample.cuda0)
  /\ model_resides_on (snd (setup Sample.base_setup (TrainerRef 0) w))
       Sample.cuda0 = true
  /\ fst (teardown Sample.base_teardown
            (snd (setup Sample.base_setup (TrainerRef 0) w))) = Val tt
  /\ model_of (snd (teardown Sample.base_teardown
                      (snd (setup Sample.base_setup (TrainerRef 0) w))))
     = Some (Sample.weights cpu_device)
  /\ cache_of (snd (teardown Sample.base_teardown
                      (snd (setup Sample.base_setup (TrainerRef 0) w)))) = 0.
Proof.
  intro w.
  exact (setup_teardown_round_trip Sample.base_setup Sample.base_teardown
           (fun _ _ => eq_refl) (fun _ _ => eq_refl) (fun _ _ => eq_refl)
           (fun _ _ => eq_refl) (fun _ => eq_refl) (fun _ => eq_refl)
           (fun _ => eq_refl) (fun _ => eq_refl)
           (TrainerRef 0) w (Sample.weights cpu_device)
           (mkLanding Sample.cuda0 true)
           eq_refl eq_refl eq_refl eq_refl eq_refl eq_refl).
Defined.

(** ** Teardown: edges *)

Lemma set_model_same (s : StrategyObj) (m : Module) :
  self_model s = Some m -> set_model (Some m) s = s.
Proof. destruct s; simpl; intros ->; reflexivity. Qed.

Lemma cuda_empty_cache_empty (r : Runtime) :
  cuda_cached r = 0 -> Torch.cuda_empty_cache r = r.
Proof. destruct r; simpl; intros ->; reflexivity. Qed.

(** With the model on the host and nothing cached, the statements after the
    [super()] call find nothing to do. *)
Lemma teardown_tail_settled w :
  model_resides_on w cpu_device = true -> cache_of w = 0 ->
  teardown_tail w = (Val tt, w).
Proof.
  intros Hres Hcache.
  destruct (String.eqb (d_type (root_of w)) "cuda"
            && Torch.cuda_is_available (torch w)) eqn:Hgpu;
    [|now apply teardown_tail_off].
  unfold model_resides_on in Hres.
  destruct (self_model (self w)) as [m|] eqn:Hm; [|discriminate].
  destruct (teardown_tail_gpu w m Hgpu Hm) as (r' & E & ->).
  rewrite (module_to_there _ _ (torch w) Hres) in E. injection E as Hrel <-.
  rewrite <- Hrel.
  rewrite (set_model_same _ _ Hm), (cuda_empty_cache_empty _ Hcache).
  now rewrite world_eta.
Qed.

Lemma teardown_tail_no_model w :
  String.eqb (d_type (root_of w)) "cuda" && Torch.cuda_is_available (torch w)
    = true ->
  model_of w = None ->
  teardown_tail w
  = (Exc (AttributeError "'NoneType' object has no attribute 'cpu'"), w).
Proof.
  intros Hgpu Hm. unfold model_of in Hm.
  unfold teardown_tail, bind. rewrite on_gpu_pure, Hgpu.
  unfold lightning_module, bind, get, ret, raise. simpl. now rewrite Hm.
Qed.

Section TeardownEdges.

Variable Strategy_teardown : M unit.

Hypothesis hook_returns : returns Strategy_teardown.
Hypothesis hook_root : keeps root_of Strategy_teardown.
Hypothesis hook_gpus : keeps gpus_of Strategy_teardown.
Hypothesis hook_model : keeps model_of Strategy_teardown.

(** [teardown] on a CUDA strategy that refers to no model raises the
    [AttributeError] of [self.lightning_module.cpu()], after the base hook
    has run: the world is what the base hook left, and
    [torch.cuda.empty_cache()] is never reached.  The base-class hook is
    asked to return and to leave root device, device count and model
    reference alone. *)
Theorem teardown_on_gpu_without_model (w : World) :
  d_type (root_of w) = "cuda" ->
  Torch.cuda_is_available (torch w) = true ->
  model_of w = None ->
  teardown Strategy_teardown w
  = (Exc (AttributeError "'NoneType' object has no attribute 'cpu'"),
     snd (Strategy_teardown w)).
Proof.
  intros Hty Hav Hm. rewrite (teardown_after_hook _ hook_returns).
  apply teardown_tail_no_model.
  - rewrite (hook_on_gpu _ hook_root hook_gpus), Hty, Hav. reflexivity.
  - now rewrite hook_model.
Qed.

Hypothesis hook_cache : keeps cache_of Strategy_teardown.

(** Once [teardown] has returned, a further [teardown] is the base hook and
    nothing more: there is no second relocation and no second cache release,
    on any root device.  The base-class hook is asked to return and to leave
    root device, device count, model and cache alone. *)
Theorem teardown_again_is_base_hook (w : World) :
  fst (teardown Strategy_teardown w) = Val tt ->
  teardown Strategy_teardown (snd (teardown Strategy_teardown w))
  = Strategy_teardown (snd (teardown Strategy_teardown w)).
Proof.
  intros Hok.
  set (w1 := snd (teardown Strategy_teardown w)).
  assert (Hsettled :
    String.eqb (d_type (root_of w1)) "cuda"
      && Torch.cuda_is_available (torch w1) = false
    \/ (model_resides_on w1 cpu_device = true /\ cache_of w1 = 0)).
  { destruct (String.eqb (d_type (root_of w)) "cuda"
              && Torch.cuda_is_available (torch w)) eqn:Hgpu.
    - right. destruct (model_of w) as [m|] eqn:Hm.
      + destruct (teardown_gpu _ hook_returns hook_root hook_gpus hook_model
                    w m Hgpu Hm) as (_ & Hrel & Hcache & _).
        split; [|exact Hcache]. unfold model_resides_on.
        unfold model_of in Hrel. fold w1 in Hrel. rewrite Hrel.
        apply relocated_resides.
      + exfalso. revert Hok.
        rewrite (teardown_after_hook _ hook_returns).
        rewrite teardown_tail_no_model;
          [discriminate | | now rewrite hook_model].
        now rewrite (hook_on_gpu _ hook_root hook_gpus).
    - left. unfold w1. rewrite (teardown_after_hook _ hook_returns).
      rewrite <- (hook_on_gpu _ hook_root hook_gpus) in Hgpu.
      now rewrite (teardown_tail_off _ Hgpu). }
  rewrite (teardown_after_hook _ hook_returns).
  assert (Htail : teardown_tail (snd (Strategy_teardown w1))
                  = (Val tt, snd (Strategy_teardown w1))).
  { destruct Hsettled as [Hoff | [Hcpu Hcache]].
    - apply teardown_tail_off.
      now rewrite (hook_on_gpu _ hook_root hook_gpus).
    - apply teardown_tail_settled.
      + unfold model_resides_on in *.
        pose proof (hook_model w1) as Hm. unfold model_of in Hm.
        now rewrite Hm.
      + now rewrite hook_cache. }
  rewrite Htail. pose proof (hook_returns w1) as Hret.
  destruct (Strategy_teardown w1) as [o w2]; simpl in *. now subst o.
Qed.

End TeardownEdges.

(** A CUDA strategy torn down before any model was attached. *)
Lemma teardown_on_gpu_without_model_witness :
  teardown Sample.base_teardown
    (snd (__init__ Sample.base_init Sample.cuda0 None None None Sample.blank))
  = (Exc (AttributeError "'NoneType' object has no attribute 'cpu'"),
     snd (Sample.base_teardown
            (snd (__init__ Sample.base_init Sample.cuda0 None None None
                    Sample.blank)))).
Proof.
  apply (teardown_on_gpu_without_model Sample.base_teardown).
  - intros w. reflexivity.
  - intros w. reflexivity.
  - intros w. reflexivity.
  - intros w. reflexivity.
  - reflexivity.
  - reflexivity.
  - reflexivity.
Defined.

(** A second teardown of a CUDA strategy whose model was on the device. *)
Lemma teardown_again_is_base_hook_witness :
  teardown Sample.base_teardown
    (snd (teardown Sample.base_teardown Sample.gpu_world))
  = Sample.base_teardown
      (snd (teardown Sample.base_teardown Sample.gpu_world)).
Proof.
  apply (teardown_again_is_base_hook Sample.base_teardown).
  - intros w. reflexivity.
  - intros w. reflexivity.
  - intros w. reflexivity.
  - intros w. reflexivity.
  - intros w. reflexivity.
  - reflexivity.
Defined.

(** ** Collectives in sequence *)

Section Collectives.

Variable Strategy_setup : Trainer -> M unit.
Variable Strategy_teardown : M unit.

Lemma perform_collective_or_read c w :
  is_collective_or_read c = true ->
  perform Strategy_setup Strategy_teardown c w = w.
Proof.
  destruct c; simpl; try discriminate; intros _; try reflexivity.
  - now rewrite on_gpu_pure.
  - now rewrite on_tpu_pure.
Qed.

(** However many collectives and property reads a caller issues, in whatever
    order and with whatever arguments, the world at the end is the world at
    the start: they move no model, touch no attribute of the strategy and
    leave the runtime alone, so the model stays where [setup] put it until
    [teardown]. *)
Theorem collectives_leave_the_world (cs : list call) (w : World) :
  forallb is_collective_or_read cs = true ->
  run Strategy_setup Strategy_teardown cs w = w.
Proof.
  unfold run. revert w. induction cs as [|c rest IH]; intros w; simpl.
  - reflexivity.
  - intros H. apply andb_prop in H as [Hc Hrest].
    rewrite (perform_collective_or_read c w Hc). now apply IH.
Qed.

End Collectives.

(** One training step's worth of collectives on a CUDA strategy. *)
Lemma collectives_leave_the_world_witness :
  run Sample.base_setup Sample.base_teardown
    [CallReduce (PyInt 3) [PyStr "mean"] []; CallBarrier [] [];
     CallAllGather (mkTensor [1; 2]%Z Sample.cuda0 true) None true;
     CallBroadcast (PyStr "ckpt") 0; CallIsGlobalZero; CallOnGpu]
    Sample.gpu_world
  = Sample.gpu_world.
Proof.
  apply (collectives_leave_the_world Sample.base_setup Sample.base_teardown).
  reflexivity.
Defined.
